(** * backend_stub.py: the [POST /generate] stub of the Dual Text Illusion
    Generator API

    The module declares one pydantic model, [GenerateRequest], and one
    route handler, [generate], that answers every request with a fixed
    message and a dump of the request it was given.

    The development has three layers:
    - the plain data that travels over the wire ([json]), with binary64
      numbers taken from [SpecFloat];
    - the validation of a request body against the declared model
      ([model_validate]): the class sets no configuration, so this is
      pydantic's default, the lax mode in which unknown keys are ignored;
    - the handler itself ([generate]), run over a store of Python objects,
      so that what it allocates, reads and leaves alone can be stated. *)

From Stdlib Require Import ZArith Ascii String Floats.SpecFloat.
From stdpp Require Import base option gmap strings list fin_maps.

#[local] Set Warnings "-register-all".
#[local] Open Scope Z_scope.

(** ** Binary64 numbers *)

(** A Python [float] is an IEEE 754 binary64 number: 53 bits of precision,
    infinities at exponent 1024. *)
Definition prec : Z := 53.
Definition emax : Z := 1024.

Module Float.

(** [m * 10 ^ e10], rounded to the nearest binary64 number (ties to even),
    with sign [neg]. Too large a magnitude gives an infinity, too small a
    one a zero. *)
Definition of_decimal (neg : bool) (m : Z) (e10 : Z) : spec_float :=
  match m with
  | Zpos p =>
      if 0 <=? e10
      then binary_round prec emax neg (p * Z.to_pos (10 ^ e10)) 0
      else SFdiv prec emax (S754_finite neg p 0)
                           (S754_finite false (Z.to_pos (10 ^ (- e10))) 0)
  | _ => S754_zero neg
  end.

(** [float(n)] for a Python [int]: the nearest binary64 number, and
    [OverflowError] ([None] here) when that is out of range. *)
Definition of_int (n : Z) : option spec_float :=
  match binary_normalize prec emax n 0 false with
  | S754_infinity _ => None
  | f => Some f
  end.

(** [float(b)] for a Python [bool]. *)
Definition of_bool (b : bool) : spec_float :=
  if b then binary_normalize prec emax 1 0 false else S754_zero false.

Definition is_digit (c : ascii) : bool :=
  let n := Z.of_N (N_of_ascii c) in (48 <=? n) && (n <=? 57).

Definition digit_value (c : ascii) : Z := Z.of_N (N_of_ascii c) - 48.

Definition is_space (c : ascii) : bool :=
  let n := Z.of_N (N_of_ascii c) in ((9 <=? n) && (n <=? 13)) || (n =? 32).

Definition to_lower (c : ascii) : ascii :=
  let n := N_of_ascii c in
  if ((65 <=? n) && (n <=? 90))%N then ascii_of_N (n + 32) else c.

Definition chars (s : string) : list ascii := list_ascii_of_string s.

Fixpoint drop_spaces (cs : list ascii) : list ascii :=
  match cs with
  | c :: cs' => if is_space c then drop_spaces cs' else cs
  | [] => []
  end.

Definition trim (cs : list ascii) : list ascii :=
  reverse (drop_spaces (reverse (drop_spaces cs))).

(** The longest prefix of decimal digits, and what follows it. *)
Fixpoint span_digits (cs : list ascii) : list ascii * list ascii :=
  match cs with
  | c :: cs' =>
      if is_digit c
      then let '(ds, rest) := span_digits cs' in (c :: ds, rest)
      else ([], cs)
  | [] => ([], [])
  end.

Definition digits_value (ds : list ascii) : Z :=
  foldl (fun acc c => 10 * acc + digit_value c) 0 ds.

(** An optional sign: whether it is a minus, and what follows it. *)
Definition split_sign (cs : list ascii) : bool * list ascii :=
  match cs with
  | "-"%char :: cs' => (true, cs')
  | "+"%char :: cs' => (false, cs')
  | _ => (false, cs)
  end.

(** The exponent part: nothing, or [e], an optional sign and at least one
    digit, up to the end of the text. *)
Definition parse_exponent (cs : list ascii) : option Z :=
  match cs with
  | [] => Some 0
  | c :: cs' =>
      if decide (to_lower c = "e"%char) then
        let '(neg, cs'') := split_sign cs' in
        match span_digits cs'' with
        | ((_ :: _) as ds, []) =>
            Some (if neg then - digits_value ds else digits_value ds)
        | _ => None
        end
      else None
  end.

(** Digits, an optional point and more digits (at least one digit in
    all), and an optional exponent. *)
Definition parse_number (neg : bool) (cs : list ascii) : option spec_float :=
  let '(int_part, rest) := span_digits cs in
  let '(frac_part, rest) :=
    match rest with
    | "."%char :: rest' => span_digits rest'
    | _ => ([], rest)
    end in
  match int_part ++ frac_part with
  | [] => None
  | ds =>
      e ← parse_exponent rest;
      Some (of_decimal neg (digits_value ds) (e - Z.of_nat (length frac_part)))
  end.

(** The text of a number, as the lax conversion of a string to a float
    reads it: surrounding white space is dropped; then comes an optional
    sign and either [inf], [infinity] or [nan] in any case, or a decimal
    number. Strings are sequences of bytes here, so only the ASCII white
    space is known; digits separated by underscores, which some releases
    of the validation library read as well, are not. *)
Definition parse (s : string) : option spec_float :=
  let '(neg, cs) := split_sign (trim (chars s)) in
  let word := string_of_list_ascii (to_lower <$> cs) in
  if decide (word = "inf" ∨ word = "infinity") then Some (S754_infinity neg)
  else if decide (word = "nan") then Some S754_nan
  else parse_number neg cs.

(** A float literal of the source text. *)
Definition lit (s : string) : spec_float := default S754_nan (parse s).

End Float.

(** ** Plain data *)

(** The decoded request body, and plain data in general: what [json.loads]
    builds. A number is an [int] or a [float]; an object is a [dict] keyed by
    strings. *)
Inductive json :=
  | JNull
  | JBool (b : bool)
  | JInt (n : Z)
  | JFloat (f : spec_float)
  | JStr (s : string)
  | JList (l : list json)
  | JObj (m : gmap string json).

(** The member [k] of plain data that is an object. *)
Definition json_get (k : string) (j : json) : option json :=
  match j with
  | JObj m => m !! k
  | _ => None
  end.

(** ** The request model *)

(** [class GenerateRequest(BaseModel)]: the five declared fields, in the
    order of their declaration. *)
Record GenerateRequest := {
  wordA : string;
  wordB : string;
  font : string;
  padding : spec_float;
  fillet : spec_float;
}.

(** The declared defaults: [font: str = "Sans"], [padding: float = 2.5],
    [fillet: float = 0.5]. *)
Definition default_font : string := "Sans".
Definition default_padding : spec_float := Float.lit "2.5".
Definition default_fillet : spec_float := Float.lit "0.5".

(** ** Validation of a request body *)

(** [GenerateRequest] derives from [BaseModel] and sets no [model_config]:
    the fields are validated in lax mode, keys of the input that name no
    field are ignored, and defaults are taken as they are written. The
    input is the decoded body, a Python value. *)

(** What can be wrong with one item of the input. The names are pydantic's
    error types. *)
Inductive error_type :=
  | missing                (* a required field is absent *)
  | string_type            (* a [str] field holds something that is no string *)
  | float_type             (* a [float] field holds something that is no number *)
  | float_parsing          (* a [float] field holds text that is no number *)
  | model_attributes_type. (* the body is no object *)

(** One line of a validation error: what is wrong, and where ([err_loc] is
    the path to the item: the field name, for a field). *)
Record error_detail := {
  err_type : error_type;
  err_loc : list string;
}.

(** The outcome of a validation: the value, or every error that was found.
    Validation does not stop at the first bad field. *)
Inductive validated (A : Type) :=
  | Valid (a : A)
  | Invalid (errs : list error_detail).
Arguments Valid {A} a.
Arguments Invalid {A} errs.

Definition errors {A} (v : validated A) : list error_detail :=
  match v with Valid _ => [] | Invalid errs => errs end.

(** Whether a validation succeeded. *)
Definition is_valid {A} (v : validated A) : bool :=
  match v with Valid _ => true | Invalid _ => false end.

(** Apply a validated function to a validated argument, keeping the errors
    of both sides, those of the function first. *)
Definition vap {A B} (vf : validated (A → B)) (va : validated A) : validated B :=
  match vf, va with
  | Valid f, Valid a => Valid (f a)
  | _, _ => Invalid (errors vf ++ errors va)
  end.
Infix "<*>" := vap (at level 61, left associativity).

(** A field of type [str], in lax mode: a string is taken as it is, and
    nothing else is converted to one. *)
Definition validate_str (v : json) : error_type + string :=
  match v with
  | JStr s => inr s
  | _ => inl string_type
  end.

(** A field of type [float], in lax mode: a float is taken as it is; an int
    and a bool are converted; a string is read as the text of a number; null,
    lists and objects are refused. *)
Definition validate_float (v : json) : error_type + spec_float :=
  match v with
  | JFloat f => inr f
  | JInt n => from_option inr (inl float_type) (Float.of_int n)
  | JBool b => inr (Float.of_bool b)
  | JStr s => from_option inr (inl float_parsing) (Float.parse s)
  | JNull | JList _ | JObj _ => inl float_type
  end.

(** Whether a field validator took a value. *)
Definition accepts {A} (validator : json → error_type + A) (v : json) : bool :=
  match validator v with inr _ => true | inl _ => false end.

(** One declared field, looked up by its name in the input object. An absent
    field takes its default when it has one (the default is not validated)
    and is an error when it has none. Keys of the input that name no field
    are never looked at. *)
Definition validate_field {A} (m : gmap string json) (name : string)
    (validator : json → error_type + A) (dflt : option A) : validated A :=
  match m !! name with
  | Some v =>
      match validator v with
      | inr a => Valid a
      | inl e => Invalid [{| err_type := e; err_loc := [name] |}]
      end
  | None =>
      match dflt with
      | Some a => Valid a
      | None => Invalid [{| err_type := missing; err_loc := [name] |}]
      end
  end.

(** The five declarations of the class body, each as the validation of its
    field in an input object [m]. *)

(** [wordA: str] *)
Definition field_wordA (m : gmap string json) : validated string :=
  validate_field m "wordA" validate_str None.

(** [wordB: str] *)
Definition field_wordB (m : gmap string json) : validated string :=
  validate_field m "wordB" validate_str None.

(** [font: str = "Sans"] *)
Definition field_font (m : gmap string json) : validated string :=
  validate_field m "font" validate_str (Some default_font).

(** [padding: float = 2.5] *)
Definition field_padding (m : gmap string json) : validated spec_float :=
  validate_field m "padding" validate_float (Some default_padding).

(** [fillet: float = 0.5] *)
Definition field_fillet (m : gmap string json) : validated spec_float :=
  validate_field m "fillet" validate_float (Some default_fillet).

(** The errors of the five fields of an input object, in the order of the
    declaration. *)
Definition field_errors (m : gmap string json) : list error_detail :=
  errors (field_wordA m) ++ errors (field_wordB m) ++ errors (field_font m) ++
  errors (field_padding m) ++ errors (field_fillet m).

(** Validation of a body against [GenerateRequest]: the body must be an
    object, and the fields are validated in the order of their
    declaration. *)
Definition model_validate (body : json) : validated GenerateRequest :=
  match body with
  | JObj m =>
      Valid Build_GenerateRequest
        <*> field_wordA m <*> field_wordB m <*> field_font m
        <*> field_padding m <*> field_fillet m
  | _ => Invalid [{| err_type := model_attributes_type; err_loc := [] |}]
  end.

(** ** The store of Python objects *)

(** Objects live in a store and are named by their location. Strings and
    numbers are immutable and stand for themselves; a [dict] and a model
    instance are reached through a reference. *)
Abbreviation loc := positive.

Inductive val :=
  | VNone
  | VBool (b : bool)
  | VInt (n : Z)
  | VFloat (f : spec_float)
  | VStr (s : string)
  | VRef (l : loc).

Inductive obj :=
  | ModelObj (r : GenerateRequest)     (* an instance of [GenerateRequest] *)
  | DictObj (d : gmap string val).     (* a [dict] with string keys *)

(** What a program can do to the world outside its objects. *)
Inductive io_event :=
  | FileIO (path : string)
  | NetworkCall (address : string).

Record state := {
  heap : gmap loc obj;
  io_log : list io_event;
}.

(** The exceptions of this program. [SchemaValidationError] is what the
    validation of a request body raises (the library's [ValidationError],
    under the name the specification gives it), with the errors it found;
    [AttributeError] is what a method call on an object without that method
    raises. *)
Inductive exn :=
  | SchemaValidationError (errs : list error_detail)
  | AttributeError (name : string).

Inductive outcome (A : Type) :=
  | Return (a : A)
  | Raise (e : exn).
Arguments Return {A} a.
Arguments Raise {A} e.

(** A computation: from a state to an outcome and the state it leaves. *)
Definition M (A : Type) : Type := state → outcome A * state.

#[global] Instance M_ret : MRet M := λ A a σ, (Return a, σ).
#[global] Instance M_bind : MBind M := λ A B k c σ,
  match c σ with
  | (Return a, σ') => k a σ'
  | (Raise e, σ') => (Raise e, σ')
  end.

Definition raise {A} (e : exn) : M A := λ σ, (Raise e, σ).

(** A new object, at a location that holds nothing yet: the state it
    leaves, and the allocation itself, which returns the location. *)
Definition store (o : obj) (σ : state) : state :=
  {| heap := <[fresh (dom (heap σ)) := o]> (heap σ); io_log := io_log σ |}.

Definition alloc (o : obj) : M loc := λ σ,
  (Return (fresh (dom (heap σ))), store o σ).

(** [BaseModel.model_dump]: a new [dict] from field name to field value.
    Called on anything that is no model instance, it raises. *)
Definition fields_dict (r : GenerateRequest) : gmap string val :=
  {[ "wordA" := VStr (wordA r);
     "wordB" := VStr (wordB r);
     "font" := VStr (font r);
     "padding" := VFloat (padding r);
     "fillet" := VFloat (fillet r) ]}.

Definition model_dump (self : loc) : M loc := λ σ,
  match heap σ !! self with
  | Some (ModelObj r) => alloc (DictObj (fields_dict r)) σ
  | _ => raise (AttributeError "model_dump") σ
  end.

(** ** The handler *)

(** The [dict] display of the [return] statement, once [req.model_dump()]
    has been evaluated to a reference. *)
Definition response_dict (received : loc) : gmap string val :=
  {[ "message" := VStr "Not implemented yet";
     "received" := VRef received ]}.

(** [def generate(req: GenerateRequest)]: the dump of the request is built
    first, then the [dict] that is returned. *)
Definition generate (req : loc) : M loc :=
  received ← model_dump req;
  alloc (DictObj (response_dict received)).

(** [@app.post("/generate")]: the route validates the decoded body against
    the type of the handler's parameter, and calls the handler with the
    instance only when the body is valid. *)
Definition post_generate (body : json) : M loc :=
  match model_validate body with
  | Valid r => req ← alloc (ModelObj r); generate req
  | Invalid errs => raise (SchemaValidationError errs)
  end.

(** ** Reading a value back as plain data *)

Definition map_traverse {A B} (f : A → option B) (m : gmap string A)
    : option (gmap string B) :=
  if decide (map_Forall (λ _ a, is_Some (f a)) m) then Some (omap f m) else None.

(** The plain data a value stands for in a store: a reference to a [dict]
    is followed, at most [depth] times in a row. A model instance is no
    plain data. *)
Fixpoint snapshot (depth : nat) (h : gmap loc obj) (v : val) : option json :=
  match v with
  | VNone => Some JNull
  | VBool b => Some (JBool b)
  | VInt n => Some (JInt n)
  | VFloat f => Some (JFloat f)
  | VStr s => Some (JStr s)
  | VRef l =>
      match depth with
      | O => None
      | S depth' =>
          match h !! l with
          | Some (DictObj d) => JObj <$> map_traverse (snapshot depth' h) d
          | _ => None
          end
      end
  end.

(** The response of the route as plain data: what the handler returned,
    read in the state it left. *)
Definition response (res : outcome loc * state) : option json :=
  match res with
  | (Return l, σ) => snapshot 2 (heap σ) (VRef l)
  | (Raise _, _) => None
  end.

(** ** The vocabulary of the specification *)

(** The declared fields with their types, as the specification lists
    them: [str] fields are JSON strings, [float] fields are JSON numbers. *)
Inductive field_type := TStr | TFloat.

Definition schema : list (string * field_type) :=
  [("wordA", TStr); ("wordB", TStr); ("font", TStr);
   ("padding", TFloat); ("fillet", TFloat)].

Definition schema_fields : list string := schema.*1.




(** A request as plain data: each field name with the field's value. *)
Definition fields_json (r : GenerateRequest) : gmap string json :=
  {[ "wordA" := JStr (wordA r);
     "wordB" := JStr (wordB r);
     "font" := JStr (font r);
     "padding" := JFloat (padding r);
     "fillet" := JFloat (fillet r) ]}.

(** The acknowledgment of a request: the fixed message and the request. *)
Definition acknowledgment (r : GenerateRequest) : json :=
  JObj {[ "message" := JStr "Not implemented yet";
          "received" := JObj (fields_json r) ]}.

(** ** The requests of the specification's examples *)

(** [{"wordA": "A", "wordB": "B"}] *)
Definition body_minimal : gmap string json :=
  {[ "wordA" := JStr "A"; "wordB" := JStr "B" ]}.

(** [{"wordA": "Hello", "wordB": "World", "font": "Serif", "padding": 1.0,
    "fillet": 0.25}] *)
Definition body_hello : gmap string json :=
  {[ "wordA" := JStr "Hello"; "wordB" := JStr "World"; "font" := JStr "Serif";
     "padding" := JFloat (Float.lit "1.0");
     "fillet" := JFloat (Float.lit "0.25") ]}.

(** [{"wordA": "A"}]: no [wordB]. *)
Definition body_no_wordB : gmap string json := {[ "wordA" := JStr "A" ]}.


(** [{"wordA": "A", "wordB": "B", "color": "red", "scale": 3}]: two keys
    that name no field. *)
Definition body_extra : gmap string json :=
  {[ "wordA" := JStr "A"; "wordB" := JStr "B";
     "color" := JStr "red"; "scale" := JInt 3 ]}.

(** [{"wordA": "A", "wordB": "B", "padding": null}]: the padding is
    null. *)
Definition body_padding_null : gmap string json :=
  {[ "wordA" := JStr "A"; "wordB" := JStr "B"; "padding" := JNull ]}.


(** [{"wordA": 1, "fillet": "round"}]: a number for a word, no [wordB], and
    a fillet that is no number. *)
Definition body_two_errors : gmap string json :=
  {[ "wordA" := JInt 1; "fillet" := JStr "round" ]}.

(** The instance that [body_minimal] validates to. *)
Definition request_minimal : GenerateRequest :=
  {| wordA := "A"; wordB := "B"; font := "Sans";
     padding := Float.lit "2.5"; fillet := Float.lit "0.5" |}.

(** ** States to run the handler in *)

(** The state with no object and no operation recorded. *)
Definition empty_state : state := {| heap := ∅; io_log := [] |}.

(** A state with one object, an instance of the model, at location 1. *)
Definition state_with_request : state :=
  {| heap := {[ 1%positive := ModelObj request_minimal ]}; io_log := [] |}.

(** A state with more in it: a [dict] at location 1, an instance of the
    model at location 2, and one file operation on record. *)
Definition busy_state : state :=
  {| heap := {[ 1%positive := DictObj {[ "k" := VInt 7 ]};
                2%positive := ModelObj request_minimal ]};
     io_log := [FileIO "server.log"] |}.

(** * Properties *)

(** ** The definitions at work *)

Example parse_literal :
  Float.parse "2.5" = Some (S754_finite false 5629499534213120 (-51)).
Proof. reflexivity. Qed.

Example parse_tenth :
  Float.parse "0.1" = Some (S754_finite false 7205759403792794 (-56)).
Proof. reflexivity. Qed.

(** The literals denote the numbers they spell: [2.5] is [5 * 2 ^ (-1)],
    and [0.5 + 0.5 + 0.5 + 0.5 + 0.5] is [2.5]. *)
Example literal_is_five_halves :
  Float.lit "2.5" = binary_normalize prec emax 5 (-1) false.
Proof. reflexivity. Qed.

Example literal_sum :
  let half := Float.lit "0.5" in
  let add := SFadd prec emax in
  add (add (add (add half half) half) half) half = Float.lit "2.5".
Proof. reflexivity. Qed.

Example parse_with_spaces : Float.parse " 1.5 " = Float.parse "1.5".
Proof. reflexivity. Qed.

Example parse_exponent_form : Float.parse "25e-1" = Float.parse "2.5".
Proof. reflexivity. Qed.

Example parse_infinity : Float.parse "-Infinity" = Some (S754_infinity true).
Proof. reflexivity. Qed.

Example parse_no_number : Float.parse "wide" = None.
Proof. reflexivity. Qed.

Example parse_no_digit : Float.parse "." = None.
Proof. reflexivity. Qed.

Example of_int_small : Float.of_int 3 = Float.parse "3.0".
Proof. reflexivity. Qed.

Example of_int_too_large : Float.of_int (10 ^ 400) = None.
Proof. vm_compute. reflexivity. Qed.

Example validate_minimal :
  model_validate (JObj body_minimal) = Valid request_minimal.
Proof. vm_compute. reflexivity. Qed.

Example validate_no_wordB :
  model_validate (JObj body_no_wordB)
    = Invalid [{| err_type := missing; err_loc := ["wordB"] |}].
Proof. vm_compute. reflexivity. Qed.

Example validate_padding_null :
  model_validate (JObj body_padding_null)
    = Invalid [{| err_type := float_type; err_loc := ["padding"] |}].
Proof. vm_compute. reflexivity. Qed.

(** Every bad field is reported, not only the first. *)
Example validate_two_errors :
  model_validate (JObj {[ "wordA" := JInt 1; "fillet" := JStr "round" ]})
    = Invalid [{| err_type := string_type; err_loc := ["wordA"] |};
               {| err_type := missing; err_loc := ["wordB"] |};
               {| err_type := float_parsing; err_loc := ["fillet"] |}].
Proof. vm_compute. reflexivity. Qed.

Example validate_no_object :
  model_validate (JList [JStr "A"; JStr "B"])
    = Invalid [{| err_type := model_attributes_type; err_loc := [] |}].
Proof. reflexivity. Qed.

Example run_minimal :
  response (post_generate (JObj body_minimal) empty_state)
    = Some (acknowledgment request_minimal).
Proof. vm_compute. reflexivity. Qed.

(** The handler called on a [dict] instead of a model instance raises. *)
Example generate_on_dict :
  let σ := {| heap := {[ 1%positive := DictObj ∅ ]}; io_log := [] |} in
  generate 1%positive σ = (Raise (AttributeError "model_dump"), σ).
Proof. reflexivity. Qed.

(** ** Validation *)

Section validation.
Implicit Types (m : gmap string json) (r : GenerateRequest).

(** Validation of an object, field by field: the model is built when all
    five fields are valid, and otherwise the errors of all of them are
    reported, in the order of the declaration. *)
Lemma model_validate_fields m :
  model_validate (JObj m) =
    match field_wordA m, field_wordB m, field_font m, field_padding m, field_fillet m with
    | Valid a, Valid b, Valid f, Valid p, Valid q =>
        Valid {| wordA := a; wordB := b; font := f; padding := p; fillet := q |}
    | _, _, _, _, _ => Invalid (field_errors m)
    end.
Proof.
  unfold model_validate, field_errors.
  destruct (field_wordA m), (field_wordB m), (field_font m), (field_padding m), (field_fillet m);
    simpl; rewrite ?app_nil_r, <- ?app_assoc; reflexivity.
Qed.

Lemma model_validate_Valid m r :
  model_validate (JObj m) = Valid r ↔
    field_wordA m = Valid (wordA r) ∧ field_wordB m = Valid (wordB r) ∧
    field_font m = Valid (font r) ∧ field_padding m = Valid (padding r) ∧
    field_fillet m = Valid (fillet r).
Proof.
  rewrite model_validate_fields. destruct r as [a b f p q]; simpl.
  destruct (field_wordA m), (field_wordB m), (field_font m), (field_padding m), (field_fillet m);
    split; intros H; try discriminate H; try (destruct H as (?&?&?&?&?); discriminate).
  - by simplify_eq.
  - destruct H as (?&?&?&?&?). by simplify_eq.
Qed.

(** Only objects are valid bodies. *)
Lemma model_validate_Valid_obj body r :
  model_validate body = Valid r → ∃ m, body = JObj m.
Proof. destruct body; try discriminate. eauto. Qed.

(** A field that is not in the input is valid exactly when it has a
    default, and then takes it. *)
Lemma validate_field_absent {A} m name (validator : json → error_type + A) dflt :
  m !! name = None →
  validate_field m name validator dflt =
    from_option Valid (Invalid [{| err_type := missing; err_loc := [name] |}]) dflt.
Proof. unfold validate_field. intros ->. by destruct dflt. Qed.

Lemma validate_field_present {A} m name (validator : json → error_type + A) dflt v :
  m !! name = Some v →
  validate_field m name validator dflt =
    match validator v with
    | inr a => Valid a
    | inl e => Invalid [{| err_type := e; err_loc := [name] |}]
    end.
Proof. unfold validate_field. by intros ->. Qed.

Lemma model_validate_Invalid m errs :
  model_validate (JObj m) = Invalid errs → errs = field_errors m.
Proof.
  rewrite model_validate_fields.
  destruct (field_wordA m), (field_wordB m), (field_font m),
    (field_padding m), (field_fillet m); congruence.
Qed.

(** An object is valid exactly when its five fields are. *)
Lemma model_validate_is_valid m :
  is_valid (model_validate (JObj m)) =
    is_valid (field_wordA m) && is_valid (field_wordB m) &&
    is_valid (field_font m) && is_valid (field_padding m) &&
    is_valid (field_fillet m).
Proof.
  rewrite model_validate_fields.
  by destruct (field_wordA m), (field_wordB m), (field_font m),
    (field_padding m), (field_fillet m).
Qed.

Lemma is_valid_true {A} (v : validated A) : is_valid v = true ↔ ∃ a, v = Valid a.
Proof. destruct v; simpl; split; try done; eauto. by intros [? ?]. Qed.

Lemma is_valid_false {A} (v : validated A) :
  is_valid v = false ↔ ∃ errs, v = Invalid errs.
Proof. destruct v; simpl; split; try done; eauto. by intros [? ?]. Qed.

(** A field is invalid when it is absent without a default, or present
    with a value its validator refuses. *)
Lemma validate_field_is_valid {A} m name (validator : json → error_type + A) dflt :
  is_valid (validate_field m name validator dflt) =
    match m !! name with
    | Some v => accepts validator v
    | None => bool_decide (is_Some dflt)
    end.
Proof.
  unfold validate_field, accepts. destruct (m !! name) as [v|].
  - by destruct (validator v).
  - by destruct dflt.
Qed.



(** A field's validation reads the input at the field's name only. *)
Lemma validate_field_ext {A} m1 m2 name (validator : json → error_type + A) dflt :
  m1 !! name = m2 !! name →
  validate_field m1 name validator dflt = validate_field m2 name validator dflt.
Proof. unfold validate_field. by intros ->. Qed.

End validation.

(** ** Reading back *)

Section reading.
Context {A B : Type} (f : A → option B).
Implicit Types (m : gmap string A).

Lemma map_traverse_empty : map_traverse f ∅ = Some ∅.
Proof.
  unfold map_traverse. case_decide as H.
  - by rewrite omap_empty.
  - destruct H. apply map_Forall_empty.
Qed.

Lemma map_traverse_insert k a m :
  m !! k = None →
  map_traverse f (<[k:=a]> m) =
    (b ← f a; m' ← map_traverse f m; Some (<[k:=b]> m')).
Proof.
  intros Hk. unfold map_traverse.
  destruct (f a) as [b|] eqn:Ha; simpl.
  - case_decide as H1; case_decide as H2; simpl.
    + by erewrite omap_insert_Some.
    + destruct H2. by apply map_Forall_insert in H1 as [_ ?].
    + destruct H1. apply map_Forall_insert; [done|]. by rewrite Ha.
    + done.
  - case_decide as H1; [|done].
    apply map_Forall_insert in H1 as [[? Hb] _]; [|done]. congruence.
Qed.

Lemma map_traverse_singleton k a :
  map_traverse f {[k := a]} = (b ← f a; Some {[k := b]}).
Proof.
  rewrite <- insert_empty, map_traverse_insert by apply lookup_empty.
  rewrite map_traverse_empty. destruct (f a); simpl; [|done].
  by rewrite insert_empty.
Qed.
End reading.

(** The dump of a request reads back as the request's fields: it holds
    strings and numbers only, so the store does not matter. *)
Lemma snapshot_fields depth h r :
  map_traverse (snapshot depth h) (fields_dict r) = Some (fields_json r).
Proof.
  unfold fields_dict, fields_json.
  rewrite !map_traverse_insert by (vm_compute; reflexivity).
  rewrite map_traverse_singleton.
  by destruct depth.
Qed.

Lemma snapshot_ref depth h l :
  snapshot (S depth) h (VRef l) =
    match h !! l with
    | Some (DictObj d) => JObj <$> map_traverse (snapshot depth h) d
    | _ => None
    end.
Proof. reflexivity. Qed.

(** A [dict] with a message and a reference to the dump of [r] reads back as
    the acknowledgment of [r]. *)
Lemma snapshot_acknowledgment h r l1 l2 :
  h !! l1 = Some (DictObj (fields_dict r)) →
  h !! l2 = Some (DictObj (response_dict l1)) →
  snapshot 2 h (VRef l2) = Some (acknowledgment r).
Proof.
  intros H1 H2. rewrite snapshot_ref, H2. unfold response_dict.
  rewrite map_traverse_insert by (vm_compute; reflexivity).
  rewrite map_traverse_singleton, snapshot_ref, H1, snapshot_fields.
  reflexivity.
Qed.

(** ** Allocation *)

Section allocation.
Implicit Types (σ : state) (o : obj) (l : loc).

Lemma alloc_store o σ : alloc o σ = (Return (fresh (dom (heap σ))), store o σ).
Proof. reflexivity. Qed.

Lemma fresh_not_allocated σ : heap σ !! fresh (dom (heap σ)) = None.
Proof. apply not_elem_of_dom, is_fresh. Qed.

Lemma store_lookup_new o σ : heap (store o σ) !! fresh (dom (heap σ)) = Some o.
Proof. apply lookup_insert_eq. Qed.

(** An allocation leaves every object that was there where it was. *)
Lemma store_lookup_old o σ l o' :
  heap σ !! l = Some o' → heap (store o σ) !! l = Some o'.
Proof.
  intros Hl. unfold store; simpl. rewrite lookup_insert_ne; [done|].
  intros <-. by rewrite fresh_not_allocated in Hl.
Qed.

Lemma store_dom o σ : dom (heap (store o σ)) = {[fresh (dom (heap σ))]} ∪ dom (heap σ).
Proof. apply dom_insert_L. Qed.

Lemma store_io_log o σ : io_log (store o σ) = io_log σ.
Proof. reflexivity. Qed.
End allocation.

(** ** One run of the handler *)

Section handler.
Implicit Types (σ : state) (r : GenerateRequest) (req : loc).

(** On a model instance the handler allocates the dump, then the
    response, and returns the response. *)
Lemma generate_run σ req r :
  heap σ !! req = Some (ModelObj r) →
  let σ1 := store (DictObj (fields_dict r)) σ in
  generate req σ =
    (Return (fresh (dom (heap σ1))),
     store (DictObj (response_dict (fresh (dom (heap σ))))) σ1).
Proof.
  intros Hreq. unfold generate, model_dump, mbind, M_bind.
  by rewrite Hreq.
Qed.

(** On anything else the call of [model_dump] raises, and nothing has
    been allocated. *)
Lemma generate_raise σ req :
  (∀ r, heap σ !! req ≠ Some (ModelObj r)) →
  generate req σ = (Raise (AttributeError "model_dump"), σ).
Proof.
  intros Hreq. unfold generate, model_dump, mbind, M_bind.
  destruct (heap σ !! req) as [[r|d]|] eqn:E; try done.
  by destruct (Hreq r).
Qed.

(** What a successful run leaves: two new [dict]s, the dump and the
    response that refers to it, and nothing else changed. *)
Lemma generate_spec σ req r :
  heap σ !! req = Some (ModelObj r) →
  ∃ received resp σ',
    generate req σ = (Return resp, σ') ∧
    heap σ !! received = None ∧ heap σ !! resp = None ∧ received ≠ resp ∧
    heap σ' = <[resp := DictObj (response_dict received)]>
                (<[received := DictObj (fields_dict r)]> (heap σ)) ∧
    io_log σ' = io_log σ.
Proof.
  intros Hreq. rewrite (generate_run _ _ _ Hreq).
  set (σ1 := store (DictObj (fields_dict r)) σ).
  exists (fresh (dom (heap σ))), (fresh (dom (heap σ1))); eexists.
  split; [reflexivity|].
  assert (heap σ1 !! fresh (dom (heap σ1)) = None) as Hnew
    by apply fresh_not_allocated.
  repeat split.
  - apply fresh_not_allocated.
  - destruct (heap σ !! fresh (dom (heap σ1))) eqn:E; [|done].
    apply (store_lookup_old (DictObj (fields_dict r))) in E.
    subst σ1. congruence.
  - intros E. rewrite <- E in Hnew. unfold σ1 in Hnew.
    by rewrite store_lookup_new in Hnew.
Qed.

(** A run reads back as the acknowledgment of the request. *)
Lemma generate_response σ req r :
  heap σ !! req = Some (ModelObj r) →
  response (generate req σ) = Some (acknowledgment r).
Proof.
  intros (received & resp & σ' & -> & _ & _ & Hne & Hheap & _)%generate_spec.
  unfold response. apply (snapshot_acknowledgment _ _ received).
  - rewrite Hheap, lookup_insert_ne, lookup_insert_eq; done.
  - by rewrite Hheap, lookup_insert_eq.
Qed.

(** The route on a valid body: the instance is allocated and the handler
    called with it. *)
Lemma post_generate_valid body r σ :
  model_validate body = Valid r →
  post_generate body σ =
    generate (fresh (dom (heap σ))) (store (ModelObj r) σ).
Proof. unfold post_generate. by intros ->. Qed.

Lemma post_generate_invalid body errs σ :
  model_validate body = Invalid errs →
  post_generate body σ = (Raise (SchemaValidationError errs), σ).
Proof. unfold post_generate. by intros ->. Qed.

Lemma post_generate_response body r σ :
  model_validate body = Valid r →
  response (post_generate body σ) = Some (acknowledgment r).
Proof.
  intros Hv. rewrite (post_generate_valid _ _ _ Hv).
  apply generate_response, store_lookup_new.
Qed.
End handler.

(** * The claims *)

(** C1. For every request body that validates into a [GenerateRequest], the
    route returns, and the ["message"] member of what the handler returned is
    the string ["Not implemented yet"]. *)
Theorem generate_message body r σ :
  model_validate body = Valid r →
  response (post_generate body σ) ≫= json_get "message"
    = Some (JStr "Not implemented yet").
Proof.
  intros Hv. by rewrite (post_generate_response _ _ _ Hv).
Qed.

Lemma generate_message_witness :
  response (post_generate (JObj body_minimal) empty_state) ≫= json_get "message"
    = Some (JStr "Not implemented yet").
Proof.
  apply (generate_message (JObj body_minimal) request_minimal empty_state).
  vm_compute. reflexivity.
Defined.

(** C2. For every body that validates, the ["received"] member of the
    response is the validated request, field by field, where an omitted
    [font], [padding] or [fillet] has its default ["Sans"], [2.5] or [0.5].
    The body [{"wordA": "A", "wordB": "B"}] is answered with the defaults
    filled in, and the body with all five fields given is answered with
    exactly the message and those five values. *)
Theorem received_echoes_request :
  (∀ m r σ,
     model_validate (JObj m) = Valid r →
     (m !! "font" = None → font r = "Sans") ∧
     (m !! "padding" = None → padding r = Float.lit "2.5") ∧
     (m !! "fillet" = None → fillet r = Float.lit "0.5") ∧
     response (post_generate (JObj m) σ) ≫= json_get "received"
       = Some (JObj {[ "wordA" := JStr (wordA r);
                       "wordB" := JStr (wordB r);
                       "font" := JStr (font r);
                       "padding" := JFloat (padding r);
                       "fillet" := JFloat (fillet r) ]})) ∧
  (∀ σ,
     response (post_generate (JObj body_minimal) σ) ≫= json_get "received"
       = Some (JObj {[ "wordA" := JStr "A";
                       "wordB" := JStr "B";
                       "font" := JStr "Sans";
                       "padding" := JFloat (Float.lit "2.5");
                       "fillet" := JFloat (Float.lit "0.5") ]})) ∧
  (∀ σ,
     response (post_generate (JObj body_hello) σ)
       = Some (JObj {[ "message" := JStr "Not implemented yet";
                       "received" :=
                         JObj {[ "wordA" := JStr "Hello";
                                 "wordB" := JStr "World";
                                 "font" := JStr "Serif";
                                 "padding" := JFloat (Float.lit "1.0");
                                 "fillet" := JFloat (Float.lit "0.25") ]} ]})).
Proof.
  split; [|split].
  - intros m r σ Hv. rewrite (post_generate_response _ _ _ Hv).
    apply model_validate_Valid in Hv as (_ & _ & Hf & Hp & Hq).
    unfold field_font, field_padding, field_fillet in *.
    unfold default_font, default_padding, default_fillet in *.
    split; [|split; [|split]]; [| | |reflexivity];
      intros E; rewrite validate_field_absent in * by done;
      simpl in *; congruence.
  - intros σ.
    rewrite (post_generate_response _ request_minimal) by (vm_compute; reflexivity).
    reflexivity.
  - intros σ. erewrite post_generate_response by (vm_compute; reflexivity).
    reflexivity.
Qed.

Lemma received_echoes_request_witness :
  (body_minimal !! "font" = None → font request_minimal = "Sans") ∧
  (body_minimal !! "padding" = None → padding request_minimal = Float.lit "2.5") ∧
  (body_minimal !! "fillet" = None → fillet request_minimal = Float.lit "0.5") ∧
  response (post_generate (JObj body_minimal) empty_state) ≫= json_get "received"
    = Some (JObj {[ "wordA" := JStr (wordA request_minimal);
                    "wordB" := JStr (wordB request_minimal);
                    "font" := JStr (font request_minimal);
                    "padding" := JFloat (padding request_minimal);
                    "fillet" := JFloat (fillet request_minimal) ]}).
Proof.
  apply (proj1 received_echoes_request body_minimal request_minimal empty_state).
  vm_compute. reflexivity.
Defined.

(** C3. For every input object without [wordA] or without [wordB],
    validation fails with a [missing] error for each absent required field,
    the route raises [SchemaValidationError] in the state it was entered in
    (the handler has not run: nothing was allocated), and there is no
    response. *)
Theorem missing_required_field m σ :
  m !! "wordA" = None ∨ m !! "wordB" = None →
  ∃ errs,
    model_validate (JObj m) = Invalid errs ∧
    (m !! "wordA" = None →
       {| err_type := missing; err_loc := ["wordA"] |} ∈ errs) ∧
    (m !! "wordB" = None →
       {| err_type := missing; err_loc := ["wordB"] |} ∈ errs) ∧
    post_generate (JObj m) σ = (Raise (SchemaValidationError errs), σ) ∧
    response (post_generate (JObj m) σ) = None.
Proof.
  intros Hm.
  assert (is_valid (model_validate (JObj m)) = false) as Hinv.
  { rewrite model_validate_is_valid. unfold field_wordA, field_wordB.
    rewrite !(validate_field_is_valid _ "wordA"), !(validate_field_is_valid _ "wordB").
    destruct Hm as [E|E]; rewrite E; simpl; [done|]. by rewrite andb_false_r. }
  apply is_valid_false in Hinv as [errs Herrs].
  exists errs. rewrite (post_generate_invalid _ _ _ Herrs).
  apply model_validate_Invalid in Herrs as Heq. subst errs.
  split; [done|]. unfold field_errors, field_wordA, field_wordB.
  split; [|split; [|done]]; intros E;
    rewrite (validate_field_absent _ _ _ _ E); simpl;
    rewrite ?elem_of_app, ?elem_of_cons; auto.
Qed.

Lemma missing_required_field_witness :
  ∃ errs,
    model_validate (JObj body_no_wordB) = Invalid errs ∧
    (body_no_wordB !! "wordA" = None →
       {| err_type := missing; err_loc := ["wordA"] |} ∈ errs) ∧
    (body_no_wordB !! "wordB" = None →
       {| err_type := missing; err_loc := ["wordB"] |} ∈ errs) ∧
    post_generate (JObj body_no_wordB) empty_state
      = (Raise (SchemaValidationError errs), empty_state) ∧
    response (post_generate (JObj body_no_wordB) empty_state) = None.
Proof.
  apply (missing_required_field body_no_wordB empty_state).
  right. vm_compute. reflexivity.
Defined.




(** C5. Called with an instance of [GenerateRequest], the handler returns:
    it does not raise. *)
Theorem generate_never_raises σ req r :
  heap σ !! req = Some (ModelObj r) →
  ∃ resp σ', generate req σ = (Return resp, σ').
Proof.
  intros (received & resp & σ' & Hrun & _)%generate_spec. eauto.
Qed.

Lemma generate_never_raises_witness :
  ∃ resp σ', generate 1%positive state_with_request = (Return resp, σ').
Proof.
  apply (generate_never_raises state_with_request 1%positive request_minimal).
  vm_compute. reflexivity.
Defined.

(** C6. Two calls of the handler with the same request give the same
    response, whatever the two states are; in particular a second call, made
    in the state the first call left, answers as the first did. The same
    holds of the route for one body in two states. *)
Theorem generate_deterministic r σ1 req1 σ2 req2 :
  heap σ1 !! req1 = Some (ModelObj r) →
  heap σ2 !! req2 = Some (ModelObj r) →
  is_Some (response (generate req1 σ1)) ∧
  response (generate req1 σ1) = response (generate req2 σ2) ∧
  response (generate req1 (generate req1 σ1).2) = response (generate req1 σ1) ∧
  ∀ body, response (post_generate body σ1) = response (post_generate body σ2).
Proof.
  intros H1 H2. rewrite !(generate_response _ _ r) by done.
  split; [eauto|]. split; [done|]. split.
  - apply generate_response.
    destruct (generate_spec _ _ _ H1)
      as (received & resp & σ' & -> & Hr & Hs & _ & Hheap & _).
    simpl. rewrite Hheap, !lookup_insert_ne; [done|congruence..].
  - intros body. destruct (model_validate body) as [r'|errs] eqn:Hv.
    + by rewrite !(post_generate_response _ r').
    + by rewrite !(post_generate_invalid _ errs).
Qed.

Lemma generate_deterministic_witness :
  is_Some (response (generate 1%positive state_with_request)) ∧
  response (generate 1%positive state_with_request)
    = response (generate 2%positive busy_state) ∧
  response (generate 1%positive (generate 1%positive state_with_request).2)
    = response (generate 1%positive state_with_request) ∧
  ∀ body, response (post_generate body state_with_request)
          = response (post_generate body busy_state).
Proof.
  apply (generate_deterministic request_minimal); vm_compute; reflexivity.
Defined.

(** C7. Keys of the input that name no field are not looked at: two input
    objects that agree on the five schema fields validate to the same
    result, and the route behaves the same on both, response included. *)
Theorem extra_fields_ignored m1 m2 :
  Forall (λ name, m1 !! name = m2 !! name) schema_fields →
  model_validate (JObj m1) = model_validate (JObj m2) ∧
  ∀ σ, post_generate (JObj m1) σ = post_generate (JObj m2) σ ∧
       response (post_generate (JObj m1) σ) = response (post_generate (JObj m2) σ).
Proof.
  intros H. repeat (apply Forall_cons in H as [? H]).
  assert (model_validate (JObj m1) = model_validate (JObj m2)) as Hv.
  { unfold model_validate, field_wordA, field_wordB, field_font,
      field_padding, field_fillet.
    by rewrite (validate_field_ext m1 m2 "wordA"),
      (validate_field_ext m1 m2 "wordB"), (validate_field_ext m1 m2 "font"),
      (validate_field_ext m1 m2 "padding"), (validate_field_ext m1 m2 "fillet"). }
  split; [done|]. intros σ. unfold post_generate. by rewrite Hv.
Qed.

Lemma extra_fields_ignored_witness :
  model_validate (JObj body_minimal) = model_validate (JObj body_extra) ∧
  ∀ σ, post_generate (JObj body_minimal) σ = post_generate (JObj body_extra) σ ∧
       response (post_generate (JObj body_minimal) σ)
         = response (post_generate (JObj body_extra) σ).
Proof.
  apply (extra_fields_ignored body_minimal body_extra).
  repeat constructor.
Defined.

(** C8. A call of the handler has no effect but its result: nothing is
    added to the record of file and network operations, every object that
    was in the store is there unchanged, and the only new objects are the
    [dict] that is returned and the dump it refers to. A call that raises
    leaves the state as it was. *)
Theorem generate_no_side_effects σ req res σ' :
  generate req σ = (res, σ') →
  io_log σ' = io_log σ ∧
  (∀ l o, heap σ !! l = Some o → heap σ' !! l = Some o) ∧
  match res with
  | Return resp =>
      ∃ received,
        heap σ !! resp = None ∧ heap σ !! received = None ∧
        heap σ' !! resp = Some (DictObj (response_dict received)) ∧
        dom (heap σ') = {[resp; received]} ∪ dom (heap σ)
  | Raise _ => σ' = σ
  end.
Proof.
  intros Hrun.
  destruct (heap σ !! req) as [[r|d]|] eqn:Hreq;
    [|rewrite generate_raise in Hrun by congruence; by simplify_eq..].
  destruct (generate_spec _ _ _ Hreq)
    as (received & resp & σ'' & Hrun' & Hr & Hs & Hne & Hheap & Hio).
  rewrite Hrun' in Hrun. simplify_eq. split; [done|]. split.
  - intros l o Hl. rewrite Hheap, !lookup_insert_ne; [done|congruence..].
  - exists received. rewrite Hheap, lookup_insert_eq, !dom_insert_L.
    repeat split; [done..|]. by rewrite (assoc_L (∪)).
Qed.

Lemma generate_no_side_effects_witness :
  io_log (generate 2%positive busy_state).2 = io_log busy_state ∧
  (∀ l o, heap busy_state !! l = Some o →
          heap (generate 2%positive busy_state).2 !! l = Some o) ∧
  match (generate 2%positive busy_state).1 with
  | Return resp =>
      ∃ received,
        heap busy_state !! resp = None ∧
        heap busy_state !! received = None ∧
        heap (generate 2%positive busy_state).2 !! resp
          = Some (DictObj (response_dict received)) ∧
        dom (heap (generate 2%positive busy_state).2)
          = {[resp; received]} ∪ dom (heap busy_state)
  | Raise _ => (generate 2%positive busy_state).2 = busy_state
  end.
Proof.
  apply (generate_no_side_effects busy_state 2%positive).
  vm_compute. reflexivity.
Defined.



(** C10. For every body that validates, the ["received"] member of the
    response is an object with exactly the five keys [wordA], [wordB],
    [font], [padding] and [fillet], whatever further keys the body had and
    whichever optional fields it left out. *)
Theorem received_has_the_schema_keys body r σ :
  model_validate body = Valid r →
  ∃ d, response (post_generate body σ) ≫= json_get "received" = Some (JObj d) ∧
       dom d = {[ "wordA"; "wordB"; "font"; "padding"; "fillet" ]}.
Proof.
  intros Hv. rewrite (post_generate_response _ _ _ Hv).
  exists (fields_json r). split; [reflexivity|].
  unfold fields_json. rewrite !dom_insert_L, dom_singleton_L. reflexivity.
Qed.

Lemma received_has_the_schema_keys_witness :
  ∃ d, response (post_generate (JObj body_extra) empty_state) ≫= json_get "received"
         = Some (JObj d) ∧
       dom d = {[ "wordA"; "wordB"; "font"; "padding"; "fillet" ]}.
Proof.
  apply (received_has_the_schema_keys (JObj body_extra) request_minimal empty_state).
  vm_compute. reflexivity.
Defined.

(** * Further properties of the model and the handler *)

(** ** How validation errors are made *)

Section errors.
Implicit Types (m : gmap string json) (e : error_detail).






End errors.







(** A field's validation is valid, or invalid with one error located at the
    field. *)
Lemma validate_field_shape {A} m name (validator : json → error_type + A) dflt :
  (∃ a, validate_field m name validator dflt = Valid a) ∨
  (∃ et, validate_field m name validator dflt =
           Invalid [{| err_type := et; err_loc := [name] |}]).
Proof.
  unfold validate_field. destruct (m !! name) as [v|].
  - destruct (validator v); eauto.
  - destruct dflt; eauto.
Qed.

(** X3. The report of a failed validation of an input object is not empty
    and follows the declaration: its lines are located at declared fields,
    in the order [wordA], [wordB], [font], [padding], [fillet], with at most
    one line for a field, so at most five lines. *)
Theorem errors_in_declaration_order m errs :
  model_validate (JObj m) = Invalid errs →
  errs ≠ [] ∧
  sublist (err_loc <$> errs) ((λ name, [name]) <$> schema_fields) ∧
  (length errs ≤ 5)%nat.
Proof.
  intros H.
  assert (errs ≠ [] ∧
          sublist (err_loc <$> errs) ((λ name, [name]) <$> schema_fields))
    as [Hne Hsub]; [|repeat split; [done..|]].
  - rewrite model_validate_fields in H. unfold field_errors in H.
    unfold field_wordA, field_wordB, field_font, field_padding, field_fillet in H.
    destruct (validate_field_shape m "wordA" validate_str None) as [[? Ea]|[? Ea]],
      (validate_field_shape m "wordB" validate_str None) as [[? Eb]|[? Eb]],
      (validate_field_shape m "font" validate_str (Some default_font)) as [[? Ef]|[? Ef]],
      (validate_field_shape m "padding" validate_float (Some default_padding))
        as [[? Ep]|[? Ep]],
      (validate_field_shape m "fillet" validate_float (Some default_fillet))
        as [[? Eq]|[? Eq]];
      rewrite Ea, Eb, Ef, Ep, Eq in H; simpl in H; simplify_eq;
      (split; [done|]); simpl;
      change ((λ name, [name]) <$> schema_fields)
        with [["wordA"]; ["wordB"]; ["font"]; ["padding"]; ["fillet"]];
      repeat first [apply sublist_nil | apply sublist_skip | apply sublist_cons].
  - apply sublist_length in Hsub. by rewrite !length_fmap in Hsub.
Qed.

Lemma errors_in_declaration_order_witness :
  [{| err_type := string_type; err_loc := ["wordA"] |};
   {| err_type := missing; err_loc := ["wordB"] |};
   {| err_type := float_parsing; err_loc := ["fillet"] |}] ≠ [] ∧
  sublist [["wordA"]; ["wordB"]; ["fillet"]]
          ((λ name, [name]) <$> schema_fields) ∧
  (3 ≤ 5)%nat.
Proof.
  apply (errors_in_declaration_order body_two_errors
           [{| err_type := string_type; err_loc := ["wordA"] |};
            {| err_type := missing; err_loc := ["wordB"] |};
            {| err_type := float_parsing; err_loc := ["fillet"] |}]).
  vm_compute. reflexivity.
Defined.

(** ** Fields, one at a time *)

Section fields.
Implicit Types (m : gmap string json) (r : GenerateRequest).

Lemma validate_field_insert {A} m name (validator : json → error_type + A) dflt v :
  validate_field (<[name := v]> m) name validator dflt =
    match validator v with
    | inr a => Valid a
    | inl e => Invalid [{| err_type := e; err_loc := [name] |}]
    end.
Proof. apply validate_field_present, lookup_insert_eq. Qed.

Lemma validate_field_insert_ne {A} m name k (validator : json → error_type + A) dflt v :
  k ≠ name →
  validate_field (<[k := v]> m) name validator dflt =
    validate_field m name validator dflt.
Proof. intros Hne. apply validate_field_ext. by rewrite lookup_insert_ne. Qed.


End fields.

(** X4. Leaving an optional field out is the same as giving it its default:
    for an input object without [font], adding ["font": "Sans"] does not
    change the outcome of the validation, valid or not, and likewise
    ["padding": 2.5] and ["fillet": 0.5]. *)
Theorem omitted_field_is_default (m : gmap string json) :
  (m !! "font" = None →
   model_validate (JObj (<["font" := JStr "Sans"]> m)) = model_validate (JObj m)) ∧
  (m !! "padding" = None →
   model_validate (JObj (<["padding" := JFloat (Float.lit "2.5")]> m))
     = model_validate (JObj m)) ∧
  (m !! "fillet" = None →
   model_validate (JObj (<["fillet" := JFloat (Float.lit "0.5")]> m))
     = model_validate (JObj m)).
Proof.
  unfold model_validate, field_wordA, field_wordB, field_font,
    field_padding, field_fillet.
  split; [|split]; intros Hm;
    rewrite validate_field_insert, !validate_field_insert_ne by done;
    by rewrite (validate_field_absent m _ _ _ Hm).
Qed.

Lemma omitted_field_is_default_witness :
  model_validate (JObj (<["padding" := JFloat (Float.lit "2.5")]> body_minimal))
    = model_validate (JObj body_minimal).
Proof.
  apply (proj1 (proj2 (omitted_field_is_default body_minimal))).
  vm_compute. reflexivity.
Defined.

(** X5. The fields are validated independently: in a valid input object,
    replacing one field by a string (for [wordA], [wordB], [font]) or by a
    float (for [padding], [fillet]) gives a valid object again, and the
    request it validates to differs in that one field only. *)
Theorem replacing_one_field (m : gmap string json) (r : GenerateRequest) :
  model_validate (JObj m) = Valid r →
  (∀ s, model_validate (JObj (<["wordA" := JStr s]> m))
        = Valid {| wordA := s; wordB := wordB r; font := font r;
                   padding := padding r; fillet := fillet r |}) ∧
  (∀ s, model_validate (JObj (<["wordB" := JStr s]> m))
        = Valid {| wordA := wordA r; wordB := s; font := font r;
                   padding := padding r; fillet := fillet r |}) ∧
  (∀ s, model_validate (JObj (<["font" := JStr s]> m))
        = Valid {| wordA := wordA r; wordB := wordB r; font := s;
                   padding := padding r; fillet := fillet r |}) ∧
  (∀ f, model_validate (JObj (<["padding" := JFloat f]> m))
        = Valid {| wordA := wordA r; wordB := wordB r; font := font r;
                   padding := f; fillet := fillet r |}) ∧
  (∀ f, model_validate (JObj (<["fillet" := JFloat f]> m))
        = Valid {| wordA := wordA r; wordB := wordB r; font := font r;
                   padding := padding r; fillet := f |}).
Proof.
  intros (Ha & Hb & Hf & Hp & Hq)%model_validate_Valid.
  unfold field_wordA, field_wordB, field_font, field_padding, field_fillet in *.
  repeat apply conj; intros x; apply model_validate_Valid;
    unfold field_wordA, field_wordB, field_font, field_padding, field_fillet;
    simpl; rewrite validate_field_insert, !validate_field_insert_ne by done;
    done.
Qed.

Lemma replacing_one_field_witness :
  model_validate (JObj (<["font" := JStr "Serif"]> body_minimal))
    = Valid {| wordA := wordA request_minimal; wordB := wordB request_minimal;
               font := "Serif"; padding := padding request_minimal;
               fillet := fillet request_minimal |}.
Proof.
  apply (replacing_one_field body_minimal request_minimal).
  vm_compute. reflexivity.
Defined.

(** ** The route and the handler, run and run again *)

Section runs.
Implicit Types (σ : state) (r : GenerateRequest) (req : loc).





(** X8. Two calls of the handler in a row share nothing: each returns a
    [dict] of its own that refers to a dump of its own, all four are new and
    different from each other and from the request, and after the second
    call the request and the first response are still what they were. *)
Theorem successive_calls_share_nothing σ req r :
  heap σ !! req = Some (ModelObj r) →
  ∃ dump1 resp1 σ1 dump2 resp2 σ2,
    generate req σ = (Return resp1, σ1) ∧
    generate req σ1 = (Return resp2, σ2) ∧
    NoDup [req; dump1; resp1; dump2; resp2] ∧
    heap σ2 !! req = Some (ModelObj r) ∧
    heap σ2 !! dump1 = Some (DictObj (fields_dict r)) ∧
    heap σ2 !! resp1 = Some (DictObj (response_dict dump1)) ∧
    heap σ2 !! dump2 = Some (DictObj (fields_dict r)) ∧
    heap σ2 !! resp2 = Some (DictObj (response_dict dump2)).
Proof.
  intros Hreq.
  destruct (generate_spec _ _ _ Hreq)
    as (dump1 & resp1 & σ1 & Hrun1 & Hd1 & Hr1 & Hne1 & Hheap1 & _).
  assert (req ≠ dump1 ∧ req ≠ resp1) as [Hqd1 Hqr1] by (split; congruence).
  assert (heap σ1 !! req = Some (ModelObj r)) as Hreq1
    by (by rewrite Hheap1, !lookup_insert_ne).
  assert (heap σ1 !! dump1 = Some (DictObj (fields_dict r))) as Hd1'
    by (by rewrite Hheap1, lookup_insert_ne, lookup_insert_eq).
  assert (heap σ1 !! resp1 = Some (DictObj (response_dict dump1))) as Hr1'
    by (by rewrite Hheap1, lookup_insert_eq).
  destruct (generate_spec _ _ _ Hreq1)
    as (dump2 & resp2 & σ2 & Hrun2 & Hd2 & Hr2 & Hne2 & Hheap2 & _).
  exists dump1, resp1, σ1, dump2, resp2, σ2.
  assert (req ≠ dump2 ∧ req ≠ resp2 ∧ dump1 ≠ dump2 ∧ dump1 ≠ resp2 ∧
          resp1 ≠ dump2 ∧ resp1 ≠ resp2) as (? & ? & ? & ? & ? & ?)
    by (repeat split; congruence).
  split; [done|]. split; [done|]. split.
  - rewrite !NoDup_cons, !elem_of_cons, !elem_of_nil.
    repeat split; try tauto. apply NoDup_nil_2.
  - rewrite Hheap2.
    repeat split;
      rewrite ?lookup_insert_eq, ?(lookup_insert_ne _ resp2),
        ?lookup_insert_eq, ?(lookup_insert_ne _ dump2) by done; done.
Qed.

Lemma successive_calls_share_nothing_witness :
  ∃ dump1 resp1 σ1 dump2 resp2 σ2,
    generate 2%positive busy_state = (Return resp1, σ1) ∧
    generate 2%positive σ1 = (Return resp2, σ2) ∧
    NoDup [2%positive; dump1; resp1; dump2; resp2] ∧
    heap σ2 !! 2%positive = Some (ModelObj request_minimal) ∧
    heap σ2 !! dump1 = Some (DictObj (fields_dict request_minimal)) ∧
    heap σ2 !! resp1 = Some (DictObj (response_dict dump1)) ∧
    heap σ2 !! dump2 = Some (DictObj (fields_dict request_minimal)) ∧
    heap σ2 !! resp2 = Some (DictObj (response_dict dump2)).
Proof.
  apply (successive_calls_share_nothing busy_state 2%positive request_minimal).
  vm_compute. reflexivity.
Defined.





End runs.
